(** * The top-level state machine of [gatsby develop]

    Embedding of [packages/gatsby/src/state-machines/develop/index.ts].

    The source file is a statechart declaration ([developConfig]) handed to
    XState's [Machine].  The declaration is transcribed below as data, state
    by state, and the part of XState's (version 4) transition function that a
    flat machine uses (a root node with atomic children, each invoking one
    service) is written out as [transition]. *)

From Stdlib Require Import String List Bool.
Import ListNotations.
Local Open Scope string_scope.
Local Open Scope list_scope.

Set Implicit Arguments.

Section Develop.

(** JavaScript objects that the machine stores and hands on without looking
    inside: the store, spans, the compiler, payloads, service results.  An
    object is always truthy; [undefined] is the [None] of an [option]. *)
Variable Obj : Type.

(** Property read [o.k] on such an object. *)
Variable prop : Obj -> string -> option Obj.

(** ** Data model *)

(** [AnyEventObject]: a [type] and whatever the sender attached.  Events of
    the listeners carry [payload]; the completion event of an invoked service
    carries [data]. *)
Record AnyEventObject := {
  type : string;
  payload : option Obj;
  data : option Obj
}.

(** Modelled from the spec: [IBuildContext] is declared in [../../services],
    which is not part of the sources.  The fields are those the state
    machine destructures, together
    with the ones section 3 of the specification lists ([devServers],
    [lastServiceResult], the worker pool).  [nodeMutationBatch] is the
    specification's [pendingMutationBatch], [parentSpan] its [tracingSpan]. *)
Record IBuildContext := {
  program : option Obj;
  store : option Obj;
  parentSpan : option Obj;
  gatsbyNodeGraphQLFunction : option Obj;
  graphqlRunner : option Obj;
  websocketManager : option Obj;
  workerPool : option Obj;
  webhookBody : option Obj;
  nodeMutationBatch : option (list AnyEventObject);
  sourceFilesDirty : option bool;
  compiler : option Obj;
  devServers : option Obj;
  lastServiceResult : option Obj
}.

(** The contexts handed to the invoked services by the [data] functions. *)
Record IDataLayerContext := {
  dl_parentSpan : option Obj;
  dl_store : option Obj;
  dl_webhookBody : option Obj;
  deferNodeMutation : bool
}.

Record IQueryRunningContext := {
  qr_program : option Obj;
  qr_store : option Obj;
  qr_parentSpan : option Obj;
  qr_gatsbyNodeGraphQLFunction : option Obj;
  qr_graphqlRunner : option Obj;
  qr_websocketManager : option Obj
}.

Record IWaitingContext := {
  w_store : option Obj;
  w_nodeMutationBatch : list AnyEventObject;
  runningBatch : list AnyEventObject
}.

Inductive InvokeData :=
| DataLayer (d : IDataLayerContext)
| QueryRunning (q : IQueryRunningContext)
| Waiting (w : IWaitingContext).

(** The keys of [developConfig.states]. *)
Inductive StateValue :=
| initializing
| initializingData
| runningPostBootstrap
| runningQueries
| recompiling
| startingDevServers
| waiting
| reloadingData
| recreatingPages.

(** ** The shape of a machine configuration *)

(** An action of the configuration: the name of an entry of the machine
    options' [actions], or [forwardTo(id)]. *)
Inductive Action :=
| named (name : string)
| forwardTo (to : string).

Record TransitionConfig := {
  target : option StateValue;
  actions : list Action;
  cond : option (IBuildContext -> bool)
}.

Record InvokeConfig := {
  id : option string;
  src : string;
  invoke_data : option (IBuildContext -> InvokeData);
  onDone : list TransitionConfig
}.

(** A value [None] under a key of [on] is the source's [EVENT: undefined]. *)
Record StateNodeConfig := {
  entry : list Action;
  on : list (string * option TransitionConfig);
  invoke : InvokeConfig
}.

(** ** [developConfig] *)

Definition goto (s : StateValue) : TransitionConfig :=
  {| target := Some s; actions := []; cond := None |}.

(** The [on] of the machine itself (source lines 17-32). *)
Definition developConfig_on : list (string * option TransitionConfig) :=
  [ ("ADD_NODE_MUTATION",
     Some {| target := None; actions := [named "addNodeMutation"]; cond := None |});
    ("SOURCE_FILE_CHANGED",
     Some {| target := None; actions := [named "markSourceFilesDirty"]; cond := None |});
    ("WEBHOOK_RECEIVED",
     Some {| target := Some reloadingData;
             actions := [named "assignWebhookBody"];
             cond := None |}) ].

Definition developConfig_initial : StateValue := initializing.

Definition dataLayerData (c : IBuildContext) : InvokeData :=
  DataLayer {| dl_parentSpan := parentSpan c;
               dl_store := store c;
               dl_webhookBody := webhookBody c;
               deferNodeMutation := true |}.

Definition runQueriesData (c : IBuildContext) : InvokeData :=
  QueryRunning {| qr_program := program c;
                  qr_store := store c;
                  qr_parentSpan := parentSpan c;
                  qr_gatsbyNodeGraphQLFunction := gatsbyNodeGraphQLFunction c;
                  qr_graphqlRunner := graphqlRunner c;
                  qr_websocketManager := websocketManager c |}.

(** [({ store, nodeMutationBatch = [] }) =>
      ({ store, nodeMutationBatch, runningBatch: [] })] *)
Definition waitingData (c : IBuildContext) : InvokeData :=
  Waiting {| w_store := store c;
             w_nodeMutationBatch :=
               match nodeMutationBatch c with Some b => b | None => [] end;
             runningBatch := [] |}.

Definition recreatePagesData (c : IBuildContext) : InvokeData :=
  DataLayer {| dl_parentSpan := parentSpan c;
               dl_store := store c;
               dl_webhookBody := None;
               deferNodeMutation := true |}.

(** [!compiler] *)
Definition noCompiler (c : IBuildContext) : bool :=
  match compiler c with Some _ => false | None => true end.

(** [!!sourceFilesDirty] *)
Definition filesDirty (c : IBuildContext) : bool :=
  match sourceFilesDirty c with Some b => b | None => false end.

(** [developConfig.states] (source lines 33-241). *)
Definition states (s : StateValue) : StateNodeConfig :=
  match s with
  | initializing =>
      {| entry := [];
         on := [ ("ADD_NODE_MUTATION", None);
                 ("SOURCE_FILE_CHANGED", None);
                 ("WEBHOOK_RECEIVED", None) ];
         invoke :=
           {| id := None; src := "initialize"; invoke_data := None;
              onDone :=
                [ {| target := Some initializingData;
                     actions := [named "assignStoreAndWorkerPool";
                                 named "spawnMutationListener"];
                     cond := None |} ] |} |}
  | initializingData =>
      {| entry := [];
         on := [ ("ADD_NODE_MUTATION",
                  Some {| target := None;
                          actions := [named "markNodesDirty"; named "callApi"];
                          cond := None |}) ];
         invoke :=
           {| id := None; src := "initializeData";
              invoke_data := Some dataLayerData;
              onDone :=
                [ {| target := Some runningPostBootstrap;
                     actions := [named "assignServiceResult";
                                 named "clearWebhookBody";
                                 named "finishParentSpan"];
                     cond := None |} ] |} |}
  | runningPostBootstrap =>
      {| entry := [];
         on := [];
         invoke :=
           {| id := None; src := "postBootstrap"; invoke_data := None;
              onDone := [ goto runningQueries ] |} |}
  | runningQueries =>
      {| entry := [];
         on := [ ("SOURCE_FILE_CHANGED",
                  Some {| target := None;
                          actions := [forwardTo "run-queries";
                                      named "markSourceFilesDirty"];
                          cond := None |}) ];
         invoke :=
           {| id := Some "run-queries"; src := "runQueries";
              invoke_data := Some runQueriesData;
              onDone :=
                [ {| target := Some startingDevServers;
                     actions := [named "setQueryRunningFinished"];
                     cond := Some noCompiler |};
                  {| target := Some recompiling;
                     actions := [];
                     cond := Some filesDirty |};
                  goto waiting ] |} |}
  | recompiling =>
      {| entry := [];
         on := [];
         invoke :=
           {| id := None; src := "recompile"; invoke_data := None;
              onDone :=
                [ {| target := Some waiting;
                     actions := [named "markSourceFilesClean"];
                     cond := None |} ] |} |}
  | startingDevServers =>
      {| entry := [];
         on := [];
         invoke :=
           {| id := None; src := "startWebpackServer"; invoke_data := None;
              onDone :=
                [ {| target := Some waiting;
                     actions := [named "assignServers";
                                 named "spawnWebpackListener";
                                 named "markSourceFilesClean"];
                     cond := None |} ] |} |}
  | waiting =>
      {| entry := [named "saveDbState"];
         on := [ ("ADD_NODE_MUTATION",
                  Some {| target := None;
                          actions := [forwardTo "waiting"];
                          cond := None |});
                 ("SOURCE_FILE_CHANGED",
                  Some {| target := None;
                          actions := [forwardTo "waiting";
                                      named "markSourceFilesDirty"];
                          cond := None |});
                 ("EXTRACT_QUERIES_NOW", Some (goto runningQueries)) ];
         invoke :=
           {| id := Some "waiting"; src := "waitForMutations";
              invoke_data := Some waitingData;
              onDone :=
                [ {| target := Some recreatingPages;
                     actions := [named "assignServiceResult"];
                     cond := None |} ] |} |}
  | reloadingData =>
      {| entry := [];
         on := [ ("ADD_NODE_MUTATION",
                  Some {| target := None;
                          actions := [named "markNodesDirty"; named "callApi"];
                          cond := None |});
                 ("SOURCE_FILE_CHANGED", None) ];
         invoke :=
           {| id := None; src := "reloadData";
              invoke_data := Some dataLayerData;
              onDone :=
                [ {| target := Some runningQueries;
                     actions := [named "assignServiceResult";
                                 named "clearWebhookBody";
                                 named "finishParentSpan"];
                     cond := None |} ] |} |}
  | recreatingPages =>
      {| entry := [];
         on := [];
         invoke :=
           {| id := None; src := "recreatePages";
              invoke_data := Some recreatePagesData;
              onDone :=
                [ {| target := Some runningQueries;
                     actions := [named "assignServiceResult"];
                     cond := None |} ] |} |}
  end.

(** ** The machine options' [actions] *)

(** What an entry of the options' [actions] is: an [assign] (a pure update
    of the context, from the context and the event) or a callback the
    interpreter runs for its effect. *)
Inductive ActionFunction :=
| assign (f : IBuildContext -> AnyEventObject -> IBuildContext)
| callback.

Definition set_store_workerPool (s w : option Obj) (c : IBuildContext) :=
  {| program := program c; store := s; parentSpan := parentSpan c;
     gatsbyNodeGraphQLFunction := gatsbyNodeGraphQLFunction c;
     graphqlRunner := graphqlRunner c;
     websocketManager := websocketManager c; workerPool := w;
     webhookBody := webhookBody c;
     nodeMutationBatch := nodeMutationBatch c;
     sourceFilesDirty := sourceFilesDirty c; compiler := compiler c;
     devServers := devServers c;
     lastServiceResult := lastServiceResult c |}.

Definition set_webhookBody (b : option Obj) (c : IBuildContext) :=
  {| program := program c; store := store c; parentSpan := parentSpan c;
     gatsbyNodeGraphQLFunction := gatsbyNodeGraphQLFunction c;
     graphqlRunner := graphqlRunner c;
     websocketManager := websocketManager c; workerPool := workerPool c;
     webhookBody := b;
     nodeMutationBatch := nodeMutationBatch c;
     sourceFilesDirty := sourceFilesDirty c; compiler := compiler c;
     devServers := devServers c;
     lastServiceResult := lastServiceResult c |}.

Definition set_nodeMutationBatch (b : option (list AnyEventObject))
    (c : IBuildContext) :=
  {| program := program c; store := store c; parentSpan := parentSpan c;
     gatsbyNodeGraphQLFunction := gatsbyNodeGraphQLFunction c;
     graphqlRunner := graphqlRunner c;
     websocketManager := websocketManager c; workerPool := workerPool c;
     webhookBody := webhookBody c;
     nodeMutationBatch := b;
     sourceFilesDirty := sourceFilesDirty c; compiler := compiler c;
     devServers := devServers c;
     lastServiceResult := lastServiceResult c |}.

Definition set_sourceFilesDirty (b : option bool) (c : IBuildContext) :=
  {| program := program c; store := store c; parentSpan := parentSpan c;
     gatsbyNodeGraphQLFunction := gatsbyNodeGraphQLFunction c;
     graphqlRunner := graphqlRunner c;
     websocketManager := websocketManager c; workerPool := workerPool c;
     webhookBody := webhookBody c;
     nodeMutationBatch := nodeMutationBatch c;
     sourceFilesDirty := b; compiler := compiler c;
     devServers := devServers c;
     lastServiceResult := lastServiceResult c |}.

Definition set_servers (k d : option Obj) (c : IBuildContext) :=
  {| program := program c; store := store c; parentSpan := parentSpan c;
     gatsbyNodeGraphQLFunction := gatsbyNodeGraphQLFunction c;
     graphqlRunner := graphqlRunner c;
     websocketManager := websocketManager c; workerPool := workerPool c;
     webhookBody := webhookBody c;
     nodeMutationBatch := nodeMutationBatch c;
     sourceFilesDirty := sourceFilesDirty c; compiler := k;
     devServers := d;
     lastServiceResult := lastServiceResult c |}.

Definition set_lastServiceResult (r : option Obj) (c : IBuildContext) :=
  {| program := program c; store := store c; parentSpan := parentSpan c;
     gatsbyNodeGraphQLFunction := gatsbyNodeGraphQLFunction c;
     graphqlRunner := graphqlRunner c;
     websocketManager := websocketManager c; workerPool := workerPool c;
     webhookBody := webhookBody c;
     nodeMutationBatch := nodeMutationBatch c;
     sourceFilesDirty := sourceFilesDirty c; compiler := compiler c;
     devServers := devServers c;
     lastServiceResult := r |}.

(** [e.data.k], [undefined] when there is no [data]. *)
Definition dataProp (e : AnyEventObject) (k : string) : option Obj :=
  match data e with Some d => prop d k | None => None end.

(** The queued batch, [[]] when nothing was queued yet. *)
Definition queued (c : IBuildContext) : list AnyEventObject :=
  match nodeMutationBatch c with Some b => b | None => [] end.

(** Modelled from the spec: [buildActions] is imported from [./actions],
    which is not part of the sources.  The updates are those sections 3 and
    4.1 of the specification give for each action the configuration names:
    a mutation event is appended to the pending batch; a file change marks
    [sourceFilesDirty] and recompilation or server start-up clears it; a
    webhook's payload is captured into [webhookBody] and the completion of a
    data phase clears it; the result of a completed service is stored; the
    bootstrap result provides the store and the worker pool; the server
    start-up result provides the compiler and the servers.  The remaining
    entries act outside the context (listener processes, the tracing span,
    the store, its checkpoint).  [markNodesDirty] and
    [setQueryRunningFinished] are names the specification does not describe:
    they have no entry, and the interpreter runs such an action as a
    callback. *)
Definition buildActions : list (string * ActionFunction) :=
  [ ("addNodeMutation",
     assign (fun c e => set_nodeMutationBatch (Some (queued c ++ [e])) c));
    ("markSourceFilesDirty",
     assign (fun c _ => set_sourceFilesDirty (Some true) c));
    ("markSourceFilesClean",
     assign (fun c _ => set_sourceFilesDirty (Some false) c));
    ("assignWebhookBody",
     assign (fun c e => set_webhookBody (payload e) c));
    ("clearWebhookBody",
     assign (fun c _ => set_webhookBody None c));
    ("assignServiceResult",
     assign (fun c e => set_lastServiceResult (data e) c));
    ("assignStoreAndWorkerPool",
     assign (fun c e =>
               set_store_workerPool (dataProp e "store")
                                    (dataProp e "workerPool") c));
    ("assignServers",
     assign (fun c e => set_servers (dataProp e "compiler") (data e) c));
    ("spawnMutationListener", callback);
    ("spawnWebpackListener", callback);
    ("callApi", callback);
    ("finishParentSpan", callback);
    ("saveDbState", callback) ].

(** ** The transition function of the statechart library *)

(** The action objects of a computed state, to be executed by the
    interpreter: stopping and starting an invoked service, sending an event
    to a child, running a named callback. *)
Inductive ActionObject :=
| stop (child : string)
| start (child : string) (service : string) (d : option InvokeData)
| send (e : AnyEventObject) (to : string)
| exec (name : string).

(** XState's [State]: the active state, the context, and the actions the
    last transition asks the interpreter to execute. *)
Record State := {
  value : StateValue;
  context : IBuildContext;
  state_actions : list ActionObject
}.

(** An invocation without an [id] is known by its [src]. *)
Definition invokeId (i : InvokeConfig) : string :=
  match id i with Some x => x | None => src i end.

(** The type of the event a service sends when it completes. *)
Definition doneInvoke (child : string) : string := String.append "done.invoke." child.

(** [EVENT: undefined] is a transition without target and without actions:
    it is selected like any other, and so keeps the event from the handler
    of the machine itself. *)
Definition toTransitionConfig (t : option TransitionConfig) : TransitionConfig :=
  match t with
  | Some c => c
  | None => {| target := None; actions := []; cond := None |}
  end.

Definition formatOn (o : list (string * option TransitionConfig))
  : list (string * TransitionConfig) :=
  map (fun kt => (fst kt, toTransitionConfig (snd kt))) o.

(** The transitions of a state node, those of its invocation first. *)
Definition transitions (n : StateNodeConfig) : list (string * TransitionConfig) :=
  map (fun t => (doneInvoke (invokeId (invoke n)), t)) (onDone (invoke n))
  ++ formatOn (on n).

Definition getCandidates (ts : list (string * TransitionConfig))
    (eventName : string) : list TransitionConfig :=
  map snd (filter (fun kt => String.eqb (fst kt) eventName) ts).

Definition guardPassed (c : IBuildContext) (t : TransitionConfig) : bool :=
  match cond t with Some g => g c | None => true end.

(** The first candidate whose guard passes. *)
Definition next (ts : list (string * TransitionConfig)) (c : IBuildContext)
    (e : AnyEventObject) : option TransitionConfig :=
  find (guardPassed c) (getCandidates ts (type e)).

(** The active state is asked first; the machine's own [on] only when the
    state selects nothing. *)
Definition transitionLeafNode (s : StateValue) (c : IBuildContext)
    (e : AnyEventObject) : option TransitionConfig :=
  match next (transitions (states s)) c e with
  | Some t => Some t
  | None => next (formatOn developConfig_on) c e
  end.

(** Actions before they are resolved against a context. *)
Inductive RawAction :=
| raw_stop (i : InvokeConfig)
| raw_start (i : InvokeConfig)
| raw (a : Action).

(** Leaving a state stops its service (the configuration has no [exit]). *)
Definition exitActions (n : StateNodeConfig) : list RawAction :=
  [raw_stop (invoke n)].

(** Entering a state starts its service, then runs [entry]. *)
Definition entryActions (n : StateNodeConfig) : list RawAction :=
  raw_start (invoke n) :: map raw (entry n).

Fixpoint lookup {A : Type} (k : string) (l : list (string * A)) : option A :=
  match l with
  | [] => None
  | (k', v) :: r => if String.eqb k' k then Some v else lookup k r
  end.

(** The [assign]s of an action list are applied first, in order. *)
Fixpoint updateContext (c : IBuildContext) (e : AnyEventObject)
    (l : list RawAction) : IBuildContext :=
  match l with
  | [] => c
  | raw (named n) :: r =>
      match lookup n buildActions with
      | Some (assign f) => updateContext (f c e) e r
      | _ => updateContext c e r
      end
  | _ :: r => updateContext c e r
  end.

(** The other actions are resolved against the updated context [c]. *)
Fixpoint resolveOthers (c : IBuildContext) (e : AnyEventObject)
    (l : list RawAction) : list ActionObject :=
  match l with
  | [] => []
  | raw_stop i :: r => stop (invokeId i) :: resolveOthers c e r
  | raw_start i :: r =>
      start (invokeId i) (src i)
            (match invoke_data i with Some f => Some (f c) | None => None end)
      :: resolveOthers c e r
  | raw (forwardTo to) :: r => send e to :: resolveOthers c e r
  | raw (named n) :: r =>
      match lookup n buildActions with
      | Some (assign _) => resolveOthers c e r
      | _ => exec n :: resolveOthers c e r
      end
  end.

(** A transition of the machine's own [on] that has a target is external:
    the active state is left and the target entered, also when the target is
    the active state.  A transition without target leaves and enters
    nothing. *)
Definition getActions (s : StateValue) (t : TransitionConfig) : list RawAction :=
  match target t with
  | Some s' =>
      exitActions (states s) ++ map raw (actions t) ++ entryActions (states s')
  | None => map raw (actions t)
  end.

Definition transition (st : State) (e : AnyEventObject) : State :=
  match transitionLeafNode (value st) (context st) e with
  | None =>
      {| value := value st; context := context st; state_actions := [] |}
  | Some t =>
      let l := getActions (value st) t in
      let c' := updateContext (context st) e l in
      {| value := match target t with Some s' => s' | None => value st end;
         context := c';
         state_actions := resolveOthers c' e l |}
  end.

(** [machine.initialState], for the context the machine is started with. *)
Definition initialState (c : IBuildContext) : State :=
  let e := {| type := "xstate.init"; payload := None; data := None |} in
  let l := entryActions (states developConfig_initial) in
  let c' := updateContext c e l in
  {| value := developConfig_initial; context := c';
     state_actions := resolveOthers c' e l |}.

(** The state after a sequence of events, processed in arrival order. *)
Definition run (st : State) (es : list AnyEventObject) : State :=
  fold_left transition es st.

(** The context of a machine created without one: every field [undefined]. *)
Definition noContext : IBuildContext :=
  {| program := None; store := None; parentSpan := None;
     gatsbyNodeGraphQLFunction := None; graphqlRunner := None;
     websocketManager := None; workerPool := None; webhookBody := None;
     nodeMutationBatch := None; sourceFilesDirty := None; compiler := None;
     devServers := None; lastServiceResult := None |}.

(** Whether a list of transitions has one for the event type [name]. *)
Definition definesHandler (ts : list (string * TransitionConfig))
    (name : string) : bool :=
  existsb (fun kt => String.eqb (fst kt) name) ts.

(** *** What a computed state asks of the interpreter *)

(** The id under which the service of a state runs. *)
Definition serviceId (s : StateValue) : string := invokeId (invoke (states s)).

(** The action that starts the service of [s], its data computed from [c]. *)
Definition startOf (s : StateValue) (c : IBuildContext) : ActionObject :=
  let i := invoke (states s) in
  start (invokeId i) (src i)
        (match invoke_data i with Some f => Some (f c) | None => None end).

Definition isLifecycle (a : ActionObject) : bool :=
  match a with
  | stop _ | start _ _ _ => true
  | _ => false
  end.

(** The stops and starts among the actions of a state, in order. *)
Definition lifecycle (l : list ActionObject) : list ActionObject :=
  filter isLifecycle l.

(** The states of the bootstrap: they precede the first query run. *)
Definition isBootstrap (s : StateValue) : bool :=
  match s with
  | initializing | initializingData | runningPostBootstrap => true
  | _ => false
  end.

(** The interpreter keeps the running services by id: executing [start]
    registers the child under its id, executing [stop] removes it. *)
Fixpoint execChildren (children : list string) (l : list ActionObject)
  : list string :=
  match l with
  | [] => children
  | stop i :: r =>
      execChildren (filter (fun j => negb (String.eqb j i)) children) r
  | start i _ _ :: r =>
      execChildren (filter (fun j => negb (String.eqb j i)) children ++ [i]) r
  | _ :: r => execChildren children r
  end.

(** A running machine: its state and the ids of its running services. *)
Record Interpreter := {
  state : State;
  children : list string
}.

Definition interpret (c : IBuildContext) : Interpreter :=
  let st := initialState c in
  {| state := st; children := execChildren [] (state_actions st) |}.

Definition sendEvent (i : Interpreter) (e : AnyEventObject) : Interpreter :=
  let st := transition (state i) e in
  {| state := st; children := execChildren (children i) (state_actions st) |}.

Definition sendAll (i : Interpreter) (es : list AnyEventObject) : Interpreter :=
  fold_left sendEvent es i.

(** ** Properties *)

Unset Implicit Arguments.

(** Compares the type of the event with the keys of the configuration, one
    key after the other. *)
Ltac by_event_type :=
  repeat match goal with
         | |- context [String.eqb ?k ?t] =>
             is_var t; destruct (String.eqb_spec k t);
             [ subst t; cbn | cbn -[String.eqb] ]
         end.

(** *** Transitions out of one given state *)

(** C1: when the [run-queries] child completes in [runningQueries], the
    guards are tried in order: without a compiler the next state is
    [startingDevServers], whatever [sourceFilesDirty] is; with a compiler it
    is [recompiling] when [sourceFilesDirty] is true and [waiting]
    otherwise. *)
Theorem runningQueries_onDone_guards :
  forall (c : IBuildContext) (a : list ActionObject) (p d : option Obj),
    value (transition
             {| value := runningQueries; context := c; state_actions := a |}
             {| type := doneInvoke "run-queries"; payload := p; data := d |})
    = match compiler c, sourceFilesDirty c with
      | None, _ => startingDevServers
      | Some _, Some true => recompiling
      | Some _, _ => waiting
      end.
Proof.
  intros c a p d.
  unfold transition, transitionLeafNode, next, guardPassed; cbn.
  unfold noCompiler, filesDirty.
  destruct (compiler c); cbn; [ | reflexivity ].
  destruct (sourceFilesDirty c) as [[|]|]; reflexivity.
Qed.

(** C4: in [initializing] a mutation, a file change and a webhook are all
    dropped: the machine stays in [initializing], the context is the one it
    had, and no action is executed. *)
Theorem initializing_drops_external_events :
  forall (c : IBuildContext) (a : list ActionObject) (p d : option Obj),
    let st := {| value := initializing; context := c; state_actions := a |} in
    let dropped :=
      {| value := initializing; context := c; state_actions := [] |} in
    transition st {| type := "ADD_NODE_MUTATION"; payload := p; data := d |}
    = dropped
    /\ transition st {| type := "SOURCE_FILE_CHANGED"; payload := p; data := d |}
       = dropped
    /\ transition st {| type := "WEBHOOK_RECEIVED"; payload := p; data := d |}
       = dropped.
Proof.
  intros c a p d st dropped; repeat split; reflexivity.
Qed.

(** C6: in [waiting], [EXTRACT_QUERIES_NOW] leads to [runningQueries] for
    every context, so whatever the batches hold; the context is not
    touched. *)
Theorem waiting_extract_queries_now :
  forall (c : IBuildContext) (a : list ActionObject) (p d : option Obj),
    let st' :=
      transition {| value := waiting; context := c; state_actions := a |}
                 {| type := "EXTRACT_QUERIES_NOW"; payload := p; data := d |} in
    value st' = runningQueries /\ context st' = c.
Proof.
  intros c a p d; split; reflexivity.
Qed.

(** C9: a webhook that arrives in [reloadingData] re-enters
    [reloadingData]: the running [reloadData] service is stopped,
    [webhookBody] becomes the new payload, and [reloadData] is started again,
    with the new [webhookBody] in its data. *)
Theorem reloadingData_webhook_reenters :
  forall (c : IBuildContext) (a : list ActionObject) (p d : option Obj),
    transition {| value := reloadingData; context := c; state_actions := a |}
               {| type := "WEBHOOK_RECEIVED"; payload := p; data := d |}
    = {| value := reloadingData;
         context := set_webhookBody p c;
         state_actions :=
           [ stop "reloadData";
             start "reloadData" "reloadData"
                   (Some (DataLayer {| dl_parentSpan := parentSpan c;
                                       dl_store := store c;
                                       dl_webhookBody := p;
                                       deferNodeMutation := true |})) ] |}.
Proof.
  intros c a p d; reflexivity.
Qed.

(** C10: in [waiting] a mutation is only sent on to the [waiting] child: the
    machine stays in [waiting] and its context, the queued batch included,
    is the one it had. *)
Theorem waiting_forwards_mutation :
  forall (c : IBuildContext) (a : list ActionObject) (p d : option Obj),
    let e := {| type := "ADD_NODE_MUTATION"; payload := p; data := d |} in
    transition {| value := waiting; context := c; state_actions := a |} e
    = {| value := waiting; context := c; state_actions := [send e "waiting"] |}.
Proof.
  intros c a p d e; reflexivity.
Qed.

(** *** The interpreter in general *)

Lemma getCandidates_none :
  forall ts name, definesHandler ts name = false -> getCandidates ts name = [].
Proof.
  unfold definesHandler, getCandidates.
  induction ts as [|kt ts IH]; intros name H; cbn in *; [reflexivity|].
  apply orb_false_elim in H as [Hk Hts].
  rewrite Hk; auto.
Qed.



(** *** The claims that depend on the active state *)

(** C2, as the code has it: in every state but [initializing], a webhook
    leads to [reloadingData] whatever the context is, stops the service of
    the state it leaves, stores its payload in [webhookBody] (no other field
    of the context changes) and starts [reloadData], which receives that
    payload as its [webhookBody]. *)
Theorem webhook_reloads_outside_initializing :
  forall (s : StateValue) (c : IBuildContext) (a : list ActionObject)
         (p d : option Obj),
    s <> initializing ->
    let st' :=
      transition {| value := s; context := c; state_actions := a |}
                 {| type := "WEBHOOK_RECEIVED"; payload := p; data := d |} in
    value st' = reloadingData
    /\ webhookBody (context st') = p
    /\ context st'
       = {| program := program c; store := store c;
         parentSpan := parentSpan c;
         gatsbyNodeGraphQLFunction := gatsbyNodeGraphQLFunction c;
         graphqlRunner := graphqlRunner c;
         websocketManager := websocketManager c;
         workerPool := workerPool c;
         webhookBody := p;
         nodeMutationBatch := nodeMutationBatch c;
         sourceFilesDirty := sourceFilesDirty c;
         compiler := compiler c;
         devServers := devServers c;
         lastServiceResult := lastServiceResult c |}
    /\ state_actions st'
       = [ stop (invokeId (invoke (states s)));
           start "reloadData" "reloadData"
                 (Some (DataLayer {| dl_parentSpan := parentSpan c;
                                     dl_store := store c;
                                     dl_webhookBody := p;
                                     deferNodeMutation := true |})) ].
Proof.
  intros s c a p d Hs st'; subst st'.
  destruct s; try (now elim Hs); repeat split; reflexivity.
Qed.

(** C3, as the code has it: in every state but [initializing], [waiting],
    [initializingData] and [reloadingData], the transition selected for a
    mutation event is the machine's own, which runs [addNodeMutation]: the
    event is appended to the queued batch ([[]] when there was none) and
    nothing else happens.  The state stays, no other field of the context
    changes, and no action is left to execute, so [callApi] does not run. *)
Theorem mutation_is_queued :
  forall (s : StateValue) (c : IBuildContext) (a : list ActionObject)
         (p d : option Obj),
    s <> initializing -> s <> waiting ->
    s <> initializingData -> s <> reloadingData ->
    let e := {| type := "ADD_NODE_MUTATION"; payload := p; data := d |} in
    let st' :=
      transition {| value := s; context := c; state_actions := a |} e in
    transitionLeafNode s c e
    = Some {| target := None; actions := [named "addNodeMutation"];
              cond := None |}
    /\ value st' = s
    /\ nodeMutationBatch (context st')
       = Some (match nodeMutationBatch c with Some b => b | None => [] end
               ++ [e])
    /\ context st'
       = {| program := program c; store := store c;
         parentSpan := parentSpan c;
         gatsbyNodeGraphQLFunction := gatsbyNodeGraphQLFunction c;
         graphqlRunner := graphqlRunner c;
         websocketManager := websocketManager c;
         workerPool := workerPool c;
         webhookBody := webhookBody c;
         nodeMutationBatch := Some (match nodeMutationBatch c with
                                         | Some b => b
                                         | None => []
                                         end ++ [e]);
         sourceFilesDirty := sourceFilesDirty c;
         compiler := compiler c;
         devServers := devServers c;
         lastServiceResult := lastServiceResult c |}
    /\ state_actions st' = []
    /\ ~ In (exec "callApi") (state_actions st').
Proof.
  intros s c a p d H1 H2 H3 H4 e st'; subst e st'.
  destruct s; try (now elim H1); try (now elim H2);
    try (now elim H3); try (now elim H4);
    (repeat (split; [ reflexivity | ]); intros []).
Qed.


(** C8: an event for which neither the active state nor the machine itself
    has a transition changes nothing: the transition function returns the
    state it was given, with the same context and no action to execute. *)
Theorem unhandled_event_is_ignored :
  forall (st : State) (e : AnyEventObject),
    definesHandler (transitions (states (value st))) (type e) = false ->
    definesHandler (formatOn developConfig_on) (type e) = false ->
    transition st e
    = {| value := value st; context := context st; state_actions := [] |}.
Proof.
  intros st e Hs Hm.
  unfold transition, transitionLeafNode, next.
  rewrite (getCandidates_none _ _ Hs), (getCandidates_none _ _ Hm).
  reflexivity.
Qed.

(** The example the specification gives for such an event:
    [EXTRACT_QUERIES_NOW] has a transition in [waiting] only. *)
Lemma extract_queries_now_outside_waiting :
  forall (s : StateValue) (c : IBuildContext) (a : list ActionObject)
         (p d : option Obj),
    s <> waiting ->
    transition {| value := s; context := c; state_actions := a |}
               {| type := "EXTRACT_QUERIES_NOW"; payload := p; data := d |}
    = {| value := s; context := c; state_actions := [] |}.
Proof.
  intros s c a p d Hs; destruct s; try reflexivity; now elim Hs.
Qed.

(** *** The life of [webhookBody] *)

(** What one event does to [webhookBody]: an accepted webhook stores its
    payload and leads to [reloadingData]; or the field is cleared; or it is
    left as it was, and then [reloadingData] is not left. *)
Lemma transition_webhookBody :
  forall (st : State) (e : AnyEventObject),
    let st' := transition st e in
    (type e = "WEBHOOK_RECEIVED" /\ value st <> initializing
     /\ value st' = reloadingData
     /\ webhookBody (context st') = payload e)
    \/ webhookBody (context st') = None
    \/ (webhookBody (context st') = webhookBody (context st)
        /\ (value st = reloadingData ->
            value st' = reloadingData /\ type e <> doneInvoke "reloadData")).
Proof.
  intros [s c a] [t p d]; destruct s;
    unfold transition, transitionLeafNode, next, getCandidates;
    cbn -[String.eqb]; by_event_type.
  all: try (unfold noCompiler, filesDirty;
            destruct (compiler c); [destruct (sourceFilesDirty c) as [[|]|]|];
            cbn).
  all: try (right; left; reflexivity).
  all: try (left; repeat split; (reflexivity || discriminate)).
  all: right; right; split; [reflexivity | intros Hs; try discriminate Hs].
  all: split; [reflexivity | cbn; congruence].
Qed.

Lemma run_snoc :
  forall st es e, run st (es ++ [e]) = transition (run st es) e.
Proof. intros; unfold run; now rewrite fold_left_app. Qed.

(** C7: in a machine started without a [webhookBody], whenever
    [webhookBody] holds a body the machine is in [reloadingData], and the
    body is the payload of a webhook that was accepted (it did not arrive in
    [initializing]) and after which no [reloadData] service has completed.
    The completion of [reloadData] in [reloadingData] and that of
    [initializeData] in [initializingData] both clear the field. *)
Theorem webhookBody_only_while_reloading :
  forall (c0 : IBuildContext) (es : list AnyEventObject) (b : Obj),
    webhookBody c0 = None ->
    webhookBody (context (run (initialState c0) es)) = Some b ->
    value (run (initialState c0) es) = reloadingData
    /\ (exists pre w post,
           es = pre ++ w :: post
           /\ type w = "WEBHOOK_RECEIVED" /\ payload w = Some b
           /\ value (run (initialState c0) pre) <> initializing
           /\ Forall (fun e => type e <> doneInvoke "reloadData") post)
    /\ (forall c a p d,
           webhookBody
             (context
                (transition
                   {| value := reloadingData; context := c; state_actions := a |}
                   {| type := doneInvoke "reloadData"; payload := p; data := d |}))
           = None)
    /\ (forall c a p d,
           webhookBody
             (context
                (transition
                   {| value := initializingData; context := c; state_actions := a |}
                   {| type := doneInvoke "initializeData"; payload := p; data := d |}))
           = None).
Proof.
  intros c0 es b H0 Hb.
  assert (Inv : value (run (initialState c0) es) = reloadingData
    /\ (exists pre w post,
           es = pre ++ w :: post
           /\ type w = "WEBHOOK_RECEIVED" /\ payload w = Some b
           /\ value (run (initialState c0) pre) <> initializing
           /\ Forall (fun e => type e <> doneInvoke "reloadData") post)).
  { revert b Hb; induction es as [|e es IH] using rev_ind; intros b Hb.
    - cbn in Hb; congruence.
    - rewrite run_snoc in *.
      destruct (transition_webhookBody (run (initialState c0) es) e)
        as [(Ht & Hs & Hv & Hw) | [Hn | (Hw & Hk)]].
      + split; [exact Hv|].
        exists es, e, []; repeat split; auto; congruence.
      + congruence.
      + rewrite Hw in Hb; destruct (IH b Hb) as (Hv & pre & w & post & E & T & P & V & F).
        destruct (Hk Hv) as [Hv' Hne]; split; [exact Hv'|].
        exists pre, w, (post ++ [e]); repeat split; auto.
        * rewrite E, <- app_assoc; reflexivity.
        * apply Forall_app; split; auto. }
  destruct Inv as [Hv Hex]; repeat split; auto.
Qed.


(** *** The state graph as a whole *)

Ltac transition_cases :=
  unfold transition, transitionLeafNode, next, getCandidates;
  cbn -[String.eqb]; by_event_type;
  try match goal with
      | |- context [noCompiler ?c] =>
          unfold noCompiler, filesDirty;
          destruct (compiler c) eqn:?;
          [ destruct (sourceFilesDirty c) as [[|]|] eqn:? | ]; cbn
      end.

Ltac in_cases H :=
  cbn in H;
  repeat (destruct H as [H|H]; [ try discriminate H | ]);
  try contradiction.

(** The four kinds of step: the event leaves the state and its service
    alone; or it is the completion of the state's service; or an accepted
    webhook; or [EXTRACT_QUERIES_NOW] in [waiting]. *)
Lemma transition_kinds :
  forall (st : State) (e : AnyEventObject),
    let st' := transition st e in
    (value st' = value st
     /\ lifecycle (state_actions st') = []
     /\ type e <> doneInvoke (serviceId (value st))
     /\ (forall ev to, In (send ev to) (state_actions st') ->
                       ev = e /\ to = serviceId (value st)
                       /\ (value st = runningQueries \/ value st = waiting)))
    \/ (value st' <> value st
        /\ lifecycle (state_actions st')
           = [stop (serviceId (value st)); startOf (value st') (context st')]
        /\ (forall ev to, ~ In (send ev to) (state_actions st'))
        /\ (type e = doneInvoke (serviceId (value st))
            /\ value st' <> reloadingData
            /\ (value st' = startingDevServers ->
                value st = runningQueries /\ compiler (context st) = None)
            /\ (value st' = recompiling ->
                value st = runningQueries
                /\ compiler (context st) <> None
                /\ sourceFilesDirty (context st) = Some true)
            \/ type e = "WEBHOOK_RECEIVED"
               /\ value st <> initializing /\ value st' = reloadingData
            \/ type e = "EXTRACT_QUERIES_NOW"
               /\ value st = waiting /\ value st' = runningQueries))
    \/ (type e = "WEBHOOK_RECEIVED"
        /\ value st = reloadingData /\ value st' = reloadingData
        /\ lifecycle (state_actions st')
           = [stop (serviceId reloadingData);
              startOf reloadingData (context st')]
        /\ (forall ev to, ~ In (send ev to) (state_actions st'))).
Proof.
  intros [s c a] [t p d]; destruct s; transition_cases.
  all: first
    [ solve [ right; right; repeat (split; [ reflexivity | ]);
              intros ev to H; in_cases H ]
    | solve [ left; split; [ reflexivity | ];
              split; [ reflexivity | ];
              split; [ cbn; congruence | ];
              intros ev to H; in_cases H;
              inversion H; subst; repeat split; auto ]
    | solve [ right; left; split; [ discriminate | ];
              split; [ reflexivity | ];
              split; [ intros ev to H; in_cases H | ];
              first
                [ left; split; [ reflexivity | ];
                  split; [ discriminate | ];
                  split; intros Hv; try discriminate Hv;
                  repeat split; auto; congruence
                | right; left; repeat split; (reflexivity || discriminate)
                | right; right; repeat split; reflexivity ] ] ].
Qed.
(** X1: an event that a state declares as [undefined] is dropped there,
    whatever the machine's own [on] says: same state, same context, nothing
    to execute. *)
Theorem declared_undefined_is_dropped :
  forall (s : StateValue) (k : string) (c : IBuildContext)
         (a : list ActionObject) (p d : option Obj),
    In (k, None) (on (states s)) ->
    transition {| value := s; context := c; state_actions := a |}
               {| type := k; payload := p; data := d |}
    = {| value := s; context := c; state_actions := [] |}.
Proof.
  intros s k c a p d H; destruct s; cbn in H;
    repeat (destruct H as [H|H];
            [ try discriminate H; inversion H; subst; reflexivity | ]);
    contradiction.
Qed.

(** X2: no state is final and none loops on itself: the completion of a
    state's service always leads to another state, stops that service and
    starts the service of the state entered, and nothing else is stopped
    or started. *)
Theorem completion_leaves_state :
  forall (s : StateValue) (c : IBuildContext) (a : list ActionObject)
         (p d : option Obj),
    let st' :=
      transition {| value := s; context := c; state_actions := a |}
                 {| type := doneInvoke (serviceId s); payload := p; data := d |}
    in
    value st' <> s
    /\ lifecycle (state_actions st')
       = [stop (serviceId s); startOf (value st') (context st')].
Proof.
  intros s c a p d; destruct s; cbv zeta;
    unfold transition, transitionLeafNode, next, getCandidates; cbn;
    try (unfold noCompiler, filesDirty;
         destruct (compiler c); [ destruct (sourceFilesDirty c) as [[|]|] | ];
         cbn);
    (split; [ discriminate | reflexivity ]).
Qed.

(** X3: the active state changes only when its own service completes, when
    a webhook arrives outside [initializing], or when [EXTRACT_QUERIES_NOW]
    arrives in [waiting]. *)
Theorem state_changes_only_on :
  forall (st : State) (e : AnyEventObject),
    value (transition st e) <> value st ->
    type e = doneInvoke (serviceId (value st))
    \/ (type e = "WEBHOOK_RECEIVED" /\ value st <> initializing)
    \/ (type e = "EXTRACT_QUERIES_NOW" /\ value st = waiting).
Proof.
  intros st e Hne.
  destruct (transition_kinds st e)
    as [(Hv & _) | [(_ & _ & _ & [(Ht & _) | [(Ht & Hs & _) | (Ht & Hs & _)]])
                   | (_ & Hs & Hv & _)]].
  - contradiction.
  - left; exact Ht.
  - right; left; split; assumption.
  - right; right; split; assumption.
  - congruence.
Qed.

(** X4: a mutation or a file change never changes the active state and
    never stops or starts a service, in any state. *)
Theorem mutations_and_file_changes_keep_service :
  forall (st : State) (e : AnyEventObject),
    type e = "ADD_NODE_MUTATION" \/ type e = "SOURCE_FILE_CHANGED" ->
    value (transition st e) = value st
    /\ lifecycle (state_actions (transition st e)) = [].
Proof.
  intros st e Ht.
  destruct (transition_kinds st e)
    as [(Hv & Hl & _) | [(_ & _ & _ & [(Hd & _) | [(Hw & _) | (Hx & _)]])
                        | (Hw & _)]].
  - split; assumption.
  - exfalso; rewrite Hd in Ht; destruct (value st), Ht; discriminate.
  - exfalso; rewrite Hw in Ht; destruct Ht; discriminate.
  - exfalso; rewrite Hx in Ht; destruct Ht; discriminate.
  - exfalso; rewrite Hw in Ht; destruct Ht; discriminate.
Qed.

(** X5: [reloadingData] is entered by a webhook only: a step from another
    state into [reloadingData] is a [WEBHOOK_RECEIVED] event received
    outside [initializing]. *)
Theorem reloadingData_entered_by_webhook_only :
  forall (st : State) (e : AnyEventObject),
    value st <> reloadingData ->
    value (transition st e) = reloadingData ->
    type e = "WEBHOOK_RECEIVED" /\ value st <> initializing.
Proof.
  intros st e Hs Hv.
  destruct (transition_kinds st e)
    as [(Hv' & _) | [(_ & _ & _ & [(_ & Hr & _) | [(Ht & Hi & _) | (_ & _ & Hq)]])
                    | (_ & Hs' & _)]];
    try congruence.
  split; assumption.
Qed.

(** X6: the dev servers are started only after a query run that completed
    while the context had no compiler. *)
Theorem startingDevServers_entered_without_compiler :
  forall (st : State) (e : AnyEventObject),
    value st <> startingDevServers ->
    value (transition st e) = startingDevServers ->
    value st = runningQueries
    /\ type e = doneInvoke "run-queries"
    /\ compiler (context st) = None.
Proof.
  intros st e Hs Hv.
  destruct (transition_kinds st e)
    as [(Hv' & _) | [(_ & _ & _ & [(Ht & _ & Hd & _) | [(_ & _ & Hr) | (_ & _ & Hq)]])
                    | (_ & _ & Hr & _)]];
    try congruence.
  destruct (Hd Hv) as [Hq Hc]; rewrite Hq in Ht; auto.
Qed.

(** X7: the bundle is recompiled only after a query run that completed
    while the context had a compiler and [sourceFilesDirty] was true. *)
Theorem recompiling_entered_with_dirty_sources :
  forall (st : State) (e : AnyEventObject),
    value st <> recompiling ->
    value (transition st e) = recompiling ->
    value st = runningQueries
    /\ type e = doneInvoke "run-queries"
    /\ compiler (context st) <> None
    /\ sourceFilesDirty (context st) = Some true.
Proof.
  intros st e Hs Hv.
  destruct (transition_kinds st e)
    as [(Hv' & _) | [(_ & _ & _ & [(Ht & _ & _ & Hd) | [(_ & _ & Hr) | (_ & _ & Hq)]])
                    | (_ & _ & Hr & _)]];
    try congruence.
  destruct (Hd Hv) as (Hq & Hc & Hf); rewrite Hq in Ht; auto.
Qed.

(** X8: an event is only ever forwarded as it is, to the service of the
    active state, in [runningQueries] or [waiting], and forwarding never
    comes with a change of state. *)
Theorem forwarded_events_reach_active_child :
  forall (st : State) (e ev : AnyEventObject) (to : string),
    In (send ev to) (state_actions (transition st e)) ->
    ev = e
    /\ to = serviceId (value st)
    /\ value (transition st e) = value st
    /\ (value st = runningQueries \/ value st = waiting).
Proof.
  intros st e ev to H.
  destruct (transition_kinds st e)
    as [(Hv & _ & _ & Hs) | [(_ & _ & Hn & _) | (_ & _ & _ & _ & Hn)]].
  - destruct (Hs ev to H) as (? & ? & ?); auto.
  - elim (Hn ev to H).
  - elim (Hn ev to H).
Qed.
(** X9: the services of the nine states run under nine different ids, so
    the completion event of the service of another state is ignored: same
    state, same context, nothing to execute. *)
Theorem completion_of_another_service_is_ignored :
  forall (s s' : StateValue) (c : IBuildContext) (a : list ActionObject)
         (p d : option Obj),
    s <> s' ->
    transition {| value := s; context := c; state_actions := a |}
               {| type := doneInvoke (serviceId s'); payload := p; data := d |}
    = {| value := s; context := c; state_actions := [] |}.
Proof.
  intros s s' c a p d H; destruct s, s'; try reflexivity; now elim H.
Qed.

Lemma execChildren_lifecycle :
  forall l ch, execChildren ch l = execChildren ch (lifecycle l).
Proof.
  induction l as [|x l IH]; intros ch; [ reflexivity | ].
  destruct x; cbn; auto.
Qed.

Lemma execChildren_replace :
  forall x s c,
    execChildren [x] [stop x; startOf s c] = [serviceId s].
Proof.
  intros x s c; unfold startOf; cbn.
  rewrite String.eqb_refl; reflexivity.
Qed.

Lemma sendAll_snoc :
  forall i es e, sendAll i (es ++ [e]) = sendEvent (sendAll i es) e.
Proof. intros; unfold sendAll; now rewrite fold_left_app. Qed.

(** X10: at any time exactly one invoked service is running, that of the
    active state: after any sequence of events, the services the
    interpreter has running are the single service of the state the machine
    is in. *)
Theorem one_service_at_a_time :
  forall (c : IBuildContext) (es : list AnyEventObject),
    children (sendAll (interpret c) es)
    = [serviceId (value (state (sendAll (interpret c) es)))].
Proof.
  intros c es; induction es as [|e es IH] using rev_ind; [ reflexivity | ].
  rewrite sendAll_snoc; unfold sendEvent; cbn [children state].
  rewrite IH, execChildren_lifecycle.
  destruct (transition_kinds (state (sendAll (interpret c) es)) e)
    as [(Hv & Hl & _) | [(_ & Hl & _) | (_ & Hs & Hv & Hl & _)]];
    rewrite Hl.
  - rewrite Hv; reflexivity.
  - apply execChildren_replace.
  - rewrite Hs, Hv; apply execChildren_replace.
Qed.

Lemma bootstrap_step :
  forall (st : State) (e : AnyEventObject),
    isBootstrap (value st) = false ->
    isBootstrap (value (transition st e)) = false.
Proof.
  intros [s c a] [t p d] H; destruct s; try discriminate H;
    transition_cases; reflexivity.
Qed.

(** X11: the bootstrap runs once: when the machine has left
    [initializing], [initializingData] and [runningPostBootstrap], no
    sequence of events brings it back to one of them. *)
Theorem bootstrap_runs_once :
  forall (st : State) (es : list AnyEventObject),
    isBootstrap (value st) = false ->
    isBootstrap (value (run st es)) = false.
Proof.
  intros st es; revert st; induction es as [|e es IH]; intros st H;
    [ exact H | ].
  cbn; apply IH, bootstrap_step, H.
Qed.

(** X12: every service that is started on a data-layer context
    ([initializeData], [reloadData], [recreatePages]) is started with
    [deferNodeMutation] set. *)
Theorem data_layer_services_defer_mutations :
  forall (st : State) (e : AnyEventObject) (i s : string)
         (dl : IDataLayerContext),
    In (start i s (Some (DataLayer dl))) (state_actions (transition st e)) ->
    deferNodeMutation dl = true.
Proof.
  intros st e i s dl H.
  assert (Hin : In (start i s (Some (DataLayer dl)))
                   (lifecycle (state_actions (transition st e))))
    by (apply filter_In; split; [ exact H | reflexivity ]).
  assert (Hst : forall s' c',
             start i s (Some (DataLayer dl)) = startOf s' c' ->
             deferNodeMutation dl = true).
  { intros s' c' E; destruct s'; unfold startOf in E; cbn in E;
      inversion E; reflexivity. }
  destruct (transition_kinds st e)
    as [(_ & Hl & _) | [(_ & Hl & _) | (_ & _ & _ & Hl & _)]];
    rewrite Hl in Hin; in_cases Hin; eapply Hst; eauto.
Qed.

(** X13: wherever a state overrides the machine's handler of
    [SOURCE_FILE_CHANGED], it keeps the marking: in every state but
    [initializing] and [reloadingData], the transition selected for a file
    change has no target and runs [markSourceFilesDirty]. *)
Theorem file_change_marks_sources_dirty :
  forall (s : StateValue) (c : IBuildContext) (p d : option Obj),
    s <> initializing -> s <> reloadingData ->
    exists t,
      transitionLeafNode s c
        {| type := "SOURCE_FILE_CHANGED"; payload := p; data := d |} = Some t
      /\ target t = None
      /\ In (named "markSourceFilesDirty") (actions t).
Proof.
  intros s c p d H1 H2;
    destruct s; try (now elim H1); try (now elim H2);
    eexists; (split; [ reflexivity | split; [ reflexivity | cbn; auto ] ]).
Qed.

(** X14: in the two data phases a mutation is handed to [callApi] at once
    instead of being queued: the transition selected in [initializingData]
    and [reloadingData] has no target and runs [markNodesDirty] and
    [callApi], not the machine's [addNodeMutation]. *)
Theorem data_phases_apply_mutations :
  forall (s : StateValue) (c : IBuildContext) (p d : option Obj),
    s = initializingData \/ s = reloadingData ->
    exists t,
      transitionLeafNode s c
        {| type := "ADD_NODE_MUTATION"; payload := p; data := d |} = Some t
      /\ target t = None
      /\ actions t = [named "markNodesDirty"; named "callApi"].
Proof.
  intros s c p d [H|H]; subst s; eexists; repeat split; reflexivity.
Qed.

(** X15: nothing that arrives during the bootstrap of [initializing] is
    kept: after any sequence of mutations, file changes and webhooks the
    machine is still in [initializing] with the context it had. *)
Theorem initializing_absorbs_external_events :
  forall (c : IBuildContext) (a : list ActionObject)
         (es : list AnyEventObject),
    Forall (fun e => type e = "ADD_NODE_MUTATION"
                     \/ type e = "SOURCE_FILE_CHANGED"
                     \/ type e = "WEBHOOK_RECEIVED") es ->
    value (run {| value := initializing; context := c; state_actions := a |} es)
    = initializing
    /\ context
         (run {| value := initializing; context := c; state_actions := a |} es)
       = c.
Proof.
  intros c a es; revert a; induction es as [|e es IH]; intros a H;
    [ split; reflexivity | ].
  inversion H as [|e' es' He Hes]; subst.
  assert (E : transition
                {| value := initializing; context := c; state_actions := a |} e
              = {| value := initializing; context := c; state_actions := [] |}).
  { destruct e as [t p d]; cbn in He;
      destruct He as [He|[He|He]]; subst t; reflexivity. }
  cbn; rewrite E; apply IH, Hes.
Qed.

(** X16: a webhook pre-empts every phase but the bootstrap of
    [initializing], and the reload it starts ends in a query run: from any
    other state, a webhook followed by the completion of [reloadData] leaves
    the machine in [runningQueries], the [reloadData] service stopped and
    the query run started. *)
Theorem webhook_then_reload_runs_queries :
  forall (s : StateValue) (c : IBuildContext) (a : list ActionObject)
         (p d r : option Obj),
    s <> initializing ->
    let st' :=
      run {| value := s; context := c; state_actions := a |}
          [ {| type := "WEBHOOK_RECEIVED"; payload := p; data := d |};
            {| type := doneInvoke "reloadData"; payload := None; data := r |} ]
    in
    value st' = runningQueries
    /\ lifecycle (state_actions st')
       = [stop "reloadData"; startOf runningQueries (context st')].
Proof.
  intros s c a p d r H; destruct s; try (now elim H); split; reflexivity.
Qed.
End Develop.

(** ** The machine on concrete events

    Objects are named by numbers here, and none has a property. *)

Local Abbreviation noProps := (fun (_ : nat) (_ : string) => @None nat).

(** C2 fails in [initializing]: a webhook that arrives there leaves the
    machine in [initializing] and its payload is not kept. *)
Lemma initializing_ignores_webhook :
  let st' :=
    transition noProps
      {| value := initializing; context := noContext nat; state_actions := [] |}
      {| type := "WEBHOOK_RECEIVED"; payload := Some 7; data := None |} in
  st' = {| value := initializing; context := noContext nat;
           state_actions := [] |}
  /\ value st' <> reloadingData
  /\ webhookBody (context st') <> Some 7.
Proof.
  cbv zeta; repeat split; cbn; discriminate.
Qed.

(** C2, amended, for a webhook that arrives in [runningQueries]. *)
Lemma webhook_reloads_outside_initializing_witness :
  let st' :=
    transition noProps
      {| value := runningQueries; context := noContext nat;
         state_actions := [] |}
      {| type := "WEBHOOK_RECEIVED"; payload := Some 7; data := None |} in
  runningQueries <> initializing
  /\ value st' = reloadingData
  /\ webhookBody (context st') = Some 7
  /\ context st'
     = {| program := program (noContext nat); store := store (noContext nat);
       parentSpan := parentSpan (noContext nat);
       gatsbyNodeGraphQLFunction := gatsbyNodeGraphQLFunction (noContext nat);
       graphqlRunner := graphqlRunner (noContext nat);
       websocketManager := websocketManager (noContext nat);
       workerPool := workerPool (noContext nat);
       webhookBody := Some 7;
       nodeMutationBatch := nodeMutationBatch (noContext nat);
       sourceFilesDirty := sourceFilesDirty (noContext nat);
       compiler := compiler (noContext nat);
       devServers := devServers (noContext nat);
       lastServiceResult := lastServiceResult (noContext nat) |}
  /\ state_actions st'
     = [ stop nat (invokeId (invoke (states nat runningQueries)));
         start "reloadData" "reloadData"
               (Some (DataLayer {| dl_parentSpan := parentSpan (noContext nat);
                                   dl_store := store (noContext nat);
                                   dl_webhookBody := Some 7;
                                   deferNodeMutation := true |})) ].
Proof.
  cbv zeta; split; [ discriminate | ].
  apply (webhook_reloads_outside_initializing nat noProps runningQueries
           (noContext nat) [] (Some 7) None).
  discriminate.
Defined.

(** C3 fails in [initializing]: a mutation that arrives there is not
    queued. *)
Lemma initializing_ignores_mutation :
  let e := {| type := "ADD_NODE_MUTATION"; payload := Some 7; data := None |} in
  let st' :=
    transition noProps
      {| value := initializing; context := noContext nat; state_actions := [] |}
      e in
  st' = {| value := initializing; context := noContext nat;
           state_actions := [] |}
  /\ nodeMutationBatch (context st') <> Some (queued (noContext nat) ++ [e]).
Proof.
  cbv zeta; split; cbn; [ reflexivity | discriminate ].
Qed.

(** C3, amended, for a mutation that arrives in [recompiling]. *)
Lemma mutation_is_queued_witness :
  let e := {| type := "ADD_NODE_MUTATION"; payload := Some 7; data := None |} in
  let st' :=
    transition noProps
      {| value := recompiling; context := noContext nat; state_actions := [] |}
      e in
  recompiling <> initializing /\ recompiling <> waiting
  /\ recompiling <> initializingData /\ recompiling <> reloadingData
  /\ transitionLeafNode recompiling (noContext nat) e
     = Some {| target := None; actions := [named "addNodeMutation"];
               cond := None |}
  /\ value st' = recompiling
  /\ nodeMutationBatch (context st')
     = Some (match nodeMutationBatch (noContext nat) with
             | Some b => b
             | None => []
             end ++ [e])
  /\ context st'
     = {| program := program (noContext nat); store := store (noContext nat);
       parentSpan := parentSpan (noContext nat);
       gatsbyNodeGraphQLFunction := gatsbyNodeGraphQLFunction (noContext nat);
       graphqlRunner := graphqlRunner (noContext nat);
       websocketManager := websocketManager (noContext nat);
       workerPool := workerPool (noContext nat);
       webhookBody := webhookBody (noContext nat);
       nodeMutationBatch := Some (match nodeMutationBatch (noContext nat) with
                                       | Some b => b
                                       | None => []
                                       end ++ [e]);
       sourceFilesDirty := sourceFilesDirty (noContext nat);
       compiler := compiler (noContext nat);
       devServers := devServers (noContext nat);
       lastServiceResult := lastServiceResult (noContext nat) |}
  /\ state_actions st' = []
  /\ ~ In (exec nat "callApi") (state_actions st').
Proof.
  cbv zeta; repeat (split; [ discriminate | ]).
  apply (mutation_is_queued nat noProps recompiling (noContext nat) []
           (Some 7) None); discriminate.
Defined.


(** C7 after the bootstrap has completed and a webhook with body [7] has
    arrived. *)
Lemma webhookBody_only_while_reloading_witness :
  let es :=
    [ {| type := "done.invoke.initialize"; payload := None; data := None |};
      {| type := "WEBHOOK_RECEIVED"; payload := Some 7; data := None |} ] in
  let st := run noProps (initialState noProps (noContext nat)) es in
  webhookBody (noContext nat) = None
  /\ webhookBody (context st) = Some 7
  /\ value st = reloadingData
  /\ (exists pre w post,
         es = pre ++ w :: post
         /\ type w = "WEBHOOK_RECEIVED" /\ payload w = Some 7
         /\ value (run noProps (initialState noProps (noContext nat)) pre)
            <> initializing
         /\ Forall (fun e => type e <> doneInvoke "reloadData") post)
  /\ (forall c a p d,
         webhookBody
           (context
              (transition noProps
                 {| value := reloadingData; context := c; state_actions := a |}
                 {| type := doneInvoke "reloadData"; payload := p; data := d |}))
         = None)
  /\ (forall c a p d,
         webhookBody
           (context
              (transition noProps
                 {| value := initializingData; context := c;
                    state_actions := a |}
                 {| type := doneInvoke "initializeData"; payload := p;
                    data := d |}))
         = None).
Proof.
  cbv zeta.
  split; [ reflexivity | ].
  split; [ reflexivity | ].
  apply (webhookBody_only_while_reloading nat noProps); reflexivity.
Defined.

(** C8 for [EXTRACT_QUERIES_NOW] received in [runningQueries]. *)
Lemma unhandled_event_is_ignored_witness :
  let st := {| value := runningQueries; context := noContext nat;
               state_actions := [ exec nat "saveDbState" ] |} in
  let e := {| type := "EXTRACT_QUERIES_NOW"; payload := None; data := None |} in
  definesHandler (transitions (states nat (value st))) (type e) = false
  /\ definesHandler (formatOn (developConfig_on nat)) (type e) = false
  /\ transition noProps st e
     = {| value := runningQueries; context := noContext nat;
          state_actions := [] |}.
Proof.
  cbv zeta.
  split; [ reflexivity | ].
  split; [ reflexivity | ].
  apply (unhandled_event_is_ignored nat noProps); reflexivity.
Defined.

(** The first scenario of the specification: the bootstrap, the data phase,
    the post-bootstrap hook and the first query run complete one after the
    other; no compiler exists yet, so the servers are started. *)
Example bootstrap_reaches_startingDevServers :
  value
    (run noProps (initialState noProps (noContext nat))
       [ {| type := "done.invoke.initialize"; payload := None; data := Some 1 |};
         {| type := "done.invoke.initializeData"; payload := None;
            data := Some 2 |};
         {| type := "done.invoke.postBootstrap"; payload := None;
            data := None |};
         {| type := "done.invoke.run-queries"; payload := None;
            data := None |} ])
  = startingDevServers.
Proof. reflexivity. Qed.

(** A file change seen while the queries run is passed to the child and
    marks the sources dirty; with a compiler in the context, the completion
    of the queries then leads to [recompiling]. *)
Example dirty_sources_recompile :
  let c := set_servers (Some 3) (Some 4) (noContext nat) in
  let change :=
    {| type := "SOURCE_FILE_CHANGED"; payload := Some 5; data := None |} in
  let st :=
    transition noProps
      {| value := runningQueries; context := c; state_actions := [] |}
      change in
  st = {| value := runningQueries;
          context := set_sourceFilesDirty (Some true) c;
          state_actions := [ send change "run-queries" ] |}
  /\ value (transition noProps st
              {| type := "done.invoke.run-queries"; payload := None;
                 data := None |})
     = recompiling.
Proof. cbv zeta; split; reflexivity. Qed.

(** ** The further properties on concrete events *)

(** X1 for a file change received in [reloadingData]. *)
Lemma declared_undefined_is_dropped_witness :
  In ("SOURCE_FILE_CHANGED", None) (on (states nat reloadingData))
  /\ transition noProps
       {| value := reloadingData; context := noContext nat;
          state_actions := [] |}
       {| type := "SOURCE_FILE_CHANGED"; payload := Some 5; data := None |}
     = {| value := reloadingData; context := noContext nat;
          state_actions := [] |}.
Proof.
  split; [ cbn; auto | ].
  apply (declared_undefined_is_dropped nat noProps); cbn; auto.
Defined.

(** X3 for the completion of the post-bootstrap hook. *)
Lemma state_changes_only_on_witness :
  let st := {| value := runningPostBootstrap; context := noContext nat;
               state_actions := [] |} in
  let e := {| type := "done.invoke.postBootstrap"; payload := None;
              data := None |} in
  value (transition noProps st e) <> value st
  /\ (type e = doneInvoke (serviceId nat (value st))
      \/ (type e = "WEBHOOK_RECEIVED" /\ value st <> initializing)
      \/ (type e = "EXTRACT_QUERIES_NOW" /\ value st = waiting)).
Proof.
  cbv zeta; split; [ cbn; discriminate | ].
  apply (state_changes_only_on nat noProps); cbn; discriminate.
Defined.

(** X4 for a file change received while the queries run. *)
Lemma mutations_and_file_changes_keep_service_witness :
  let st := {| value := runningQueries; context := noContext nat;
               state_actions := [] |} in
  let e := {| type := "SOURCE_FILE_CHANGED"; payload := Some 5;
              data := None |} in
  (type e = "ADD_NODE_MUTATION" \/ type e = "SOURCE_FILE_CHANGED")
  /\ value (transition noProps st e) = value st
  /\ lifecycle (state_actions (transition noProps st e)) = [].
Proof.
  cbv zeta; split; [ right; reflexivity | ].
  apply (mutations_and_file_changes_keep_service nat noProps);
    right; reflexivity.
Defined.

(** X5 for a webhook received in [waiting]. *)
Lemma reloadingData_entered_by_webhook_only_witness :
  let st := {| value := waiting; context := noContext nat;
               state_actions := [] |} in
  let e := {| type := "WEBHOOK_RECEIVED"; payload := Some 7; data := None |} in
  value st <> reloadingData
  /\ value (transition noProps st e) = reloadingData
  /\ type e = "WEBHOOK_RECEIVED" /\ value st <> initializing.
Proof.
  cbv zeta; split; [ cbn; discriminate | ].
  split; [ reflexivity | ].
  apply (reloadingData_entered_by_webhook_only nat noProps);
    [ cbn; discriminate | reflexivity ].
Defined.

(** X6 for the first query run, which completes without a compiler. *)
Lemma startingDevServers_entered_without_compiler_witness :
  let st := {| value := runningQueries; context := noContext nat;
               state_actions := [] |} in
  let e := {| type := "done.invoke.run-queries"; payload := None;
              data := None |} in
  value st <> startingDevServers
  /\ value (transition noProps st e) = startingDevServers
  /\ value st = runningQueries
  /\ type e = doneInvoke "run-queries"
  /\ compiler (context st) = None.
Proof.
  cbv zeta; split; [ cbn; discriminate | ].
  split; [ reflexivity | ].
  apply (startingDevServers_entered_without_compiler nat noProps);
    [ cbn; discriminate | reflexivity ].
Defined.

(** X7 for a query run that completes with a compiler and dirty sources. *)
Lemma recompiling_entered_with_dirty_sources_witness :
  let c := set_sourceFilesDirty (Some true)
             (set_servers (Some 3) (Some 4) (noContext nat)) in
  let st := {| value := runningQueries; context := c; state_actions := [] |} in
  let e := {| type := "done.invoke.run-queries"; payload := None;
              data := None |} in
  value st <> recompiling
  /\ value (transition noProps st e) = recompiling
  /\ value st = runningQueries
  /\ type e = doneInvoke "run-queries"
  /\ compiler (context st) <> None
  /\ sourceFilesDirty (context st) = Some true.
Proof.
  cbv zeta; split; [ cbn; discriminate | ].
  split; [ reflexivity | ].
  apply (recompiling_entered_with_dirty_sources nat noProps);
    [ cbn; discriminate | reflexivity ].
Defined.

(** X8 for a mutation received in [waiting]. *)
Lemma forwarded_events_reach_active_child_witness :
  let st := {| value := waiting; context := noContext nat;
               state_actions := [] |} in
  let e := {| type := "ADD_NODE_MUTATION"; payload := Some 7; data := None |} in
  In (send e "waiting") (state_actions (transition noProps st e))
  /\ e = e
  /\ "waiting" = serviceId nat (value st)
  /\ value (transition noProps st e) = value st
  /\ (value st = runningQueries \/ value st = waiting).
Proof.
  cbv zeta; split; [ cbn; auto | ].
  apply (forwarded_events_reach_active_child nat noProps); cbn; auto.
Defined.

(** X9 for a completion of the query run that arrives in [reloadingData]. *)
Lemma completion_of_another_service_is_ignored_witness :
  reloadingData <> runningQueries
  /\ transition noProps
       {| value := reloadingData; context := noContext nat;
          state_actions := [] |}
       {| type := doneInvoke (serviceId nat runningQueries); payload := None;
          data := Some 9 |}
     = {| value := reloadingData; context := noContext nat;
          state_actions := [] |}.
Proof.
  split; [ discriminate | ].
  apply (completion_of_another_service_is_ignored nat noProps); discriminate.
Defined.

(** X11 for a webhook and a reload after the bootstrap. *)
Lemma bootstrap_runs_once_witness :
  let st := {| value := waiting; context := noContext nat;
               state_actions := [] |} in
  let es :=
    [ {| type := "WEBHOOK_RECEIVED"; payload := Some 7; data := None |};
      {| type := "done.invoke.reloadData"; payload := None; data := None |} ] in
  isBootstrap (value st) = false
  /\ isBootstrap (value (run noProps st es)) = false.
Proof.
  cbv zeta; split; [ reflexivity | ].
  apply (bootstrap_runs_once nat noProps); reflexivity.
Defined.

(** X12 for the start of [initializeData] when the bootstrap completes. *)
Lemma data_layer_services_defer_mutations_witness :
  let st := {| value := initializing; context := noContext nat;
               state_actions := [] |} in
  let e := {| type := "done.invoke.initialize"; payload := None;
              data := Some 1 |} in
  let dl := {| dl_parentSpan := None; dl_store := None;
               dl_webhookBody := @None nat; deferNodeMutation := true |} in
  In (start "initializeData" "initializeData" (Some (DataLayer dl)))
     (state_actions (transition noProps st e))
  /\ deferNodeMutation dl = true.
Proof.
  cbv zeta; split; [ cbn; auto | ].
  apply (data_layer_services_defer_mutations nat noProps
           {| value := initializing; context := noContext nat;
              state_actions := [] |}
           {| type := "done.invoke.initialize"; payload := None;
              data := Some 1 |}
           "initializeData" "initializeData").
  cbn; auto.
Defined.

(** X13 for a file change received in [waiting]. *)
Lemma file_change_marks_sources_dirty_witness :
  waiting <> initializing
  /\ waiting <> reloadingData
  /\ exists t,
       transitionLeafNode waiting (noContext nat)
         {| type := "SOURCE_FILE_CHANGED"; payload := Some 5; data := None |}
       = Some t
       /\ target t = None
       /\ In (named "markSourceFilesDirty") (actions t).
Proof.
  split; [ discriminate | ].
  split; [ discriminate | ].
  apply (file_change_marks_sources_dirty nat); discriminate.
Defined.

(** X14 for a mutation received in [initializingData]. *)
Lemma data_phases_apply_mutations_witness :
  (initializingData = initializingData \/ initializingData = reloadingData)
  /\ exists t,
       transitionLeafNode initializingData (noContext nat)
         {| type := "ADD_NODE_MUTATION"; payload := Some 7; data := None |}
       = Some t
       /\ target t = None
       /\ actions t = [named "markNodesDirty"; named "callApi"].
Proof.
  split; [ left; reflexivity | ].
  apply (data_phases_apply_mutations nat); left; reflexivity.
Defined.

(** X15 for a mutation and a webhook received during the bootstrap. *)
Lemma initializing_absorbs_external_events_witness :
  let es :=
    [ {| type := "ADD_NODE_MUTATION"; payload := Some 7; data := None |};
      {| type := "WEBHOOK_RECEIVED"; payload := Some 8; data := None |} ] in
  let st := {| value := initializing; context := noContext nat;
               state_actions := [] |} in
  Forall (fun e => type e = "ADD_NODE_MUTATION"
                   \/ type e = "SOURCE_FILE_CHANGED"
                   \/ type e = "WEBHOOK_RECEIVED") es
  /\ value (run noProps st es) = initializing
  /\ context (run noProps st es) = noContext nat.
Proof.
  cbv zeta.
  assert (H : Forall (fun e : AnyEventObject nat =>
                        type e = "ADD_NODE_MUTATION"
                        \/ type e = "SOURCE_FILE_CHANGED"
                        \/ type e = "WEBHOOK_RECEIVED")
                [ {| type := "ADD_NODE_MUTATION"; payload := Some 7;
                     data := None |};
                  {| type := "WEBHOOK_RECEIVED"; payload := Some 8;
                     data := None |} ])
    by (repeat constructor; cbn; auto).
  split; [ exact H | ].
  apply (initializing_absorbs_external_events nat noProps); exact H.
Defined.

(** X16 for a webhook that pre-empts a recompilation. *)
Lemma webhook_then_reload_runs_queries_witness :
  let st' :=
    run noProps
      {| value := recompiling; context := noContext nat; state_actions := [] |}
      [ {| type := "WEBHOOK_RECEIVED"; payload := Some 7; data := None |};
        {| type := doneInvoke "reloadData"; payload := None; data := Some 9 |} ]
  in
  recompiling <> initializing
  /\ value st' = runningQueries
  /\ lifecycle (state_actions st')
     = [stop nat "reloadData"; startOf runningQueries (context st')].
Proof.
  cbv zeta; split; [ discriminate | ].
  apply (webhook_then_reload_runs_queries nat noProps); discriminate.
Defined.
